(** * inference-worker: the job adapter in front of a local llama.cpp server

    A shallow embedding of [utils.py], [engine.py] and [handler.py].

    - Python values that can occur in a job or in a response are the JSON
      shaped values of [pyval]; a [str] is a Rocq [string] whose characters
      are the code points 0..255, a [dict] is an association list in
      insertion order.  Floating point numbers are left out of the value
      model.
    - The OpenAI client is an oracle ([Client]) over an abstract server
      state; every call to it is recorded in a log.
    - An async generator is run to completion: it produces the units it
      yielded, in order, and either ends normally or lets an exception
      escape to its consumer. *)

From Stdlib Require Import String Ascii List ZArith Bool Lia.
From Stdlib Require Import DecimalString.
Import ListNotations.
Open Scope string_scope.

(* ================================================================== *)
(** ** Python values *)
(* ================================================================== *)

#[local] Set Warnings "-register-all".

Inductive pyval : Type :=
| PNone
| PBool (b : bool)
| PInt (z : Z)
| PStr (s : string)
| PList (l : list pyval)
| PDict (d : list (string * pyval)).

Definition dict := list (string * pyval).

(** An induction principle that reaches below lists and dicts. *)
Section pyval_induction.
Variable P : pyval -> Prop.
Hypothesis HNone : P PNone.
Hypothesis HBool : forall b, P (PBool b).
Hypothesis HInt : forall z, P (PInt z).
Hypothesis HStr : forall s, P (PStr s).
Hypothesis HList : forall l, Forall P l -> P (PList l).
Hypothesis HDict : forall d, Forall (fun kv => P (snd kv)) d -> P (PDict d).

Fixpoint pyval_deep_ind (v : pyval) : P v :=
  match v with
  | PNone => HNone
  | PBool b => HBool b
  | PInt z => HInt z
  | PStr s => HStr s
  | PList l =>
      HList l
        ((fix go (l : list pyval) : Forall P l :=
            match l with
            | [] => Forall_nil _
            | x :: r => Forall_cons _ (pyval_deep_ind x) (go r)
            end) l)
  | PDict d =>
      HDict d
        ((fix go (d : dict) : Forall (fun kv => P (snd kv)) d :=
            match d with
            | [] => Forall_nil _
            | kv :: r => Forall_cons _ (pyval_deep_ind (snd kv)) (go r)
            end) d)
  end.
End pyval_induction.

(** [bool(v)]: the truth value Python gives to [v] in [if v], [not v]. *)
Definition truthy (v : pyval) : bool :=
  match v with
  | PNone => false
  | PBool b => b
  | PInt z => negb (Z.eqb z 0)
  | PStr s => match s with EmptyString => false | _ => true end
  | PList l => match l with [] => false | _ => true end
  | PDict d => match d with [] => false | _ => true end
  end.

(** [isinstance(v, str)] *)
Definition isinstance_str (v : pyval) : bool :=
  match v with PStr _ => true | _ => false end.

(** [v == s] for a string literal [s]: only a [str] can be equal to it. *)
Definition eq_str (v : pyval) (s : string) : bool :=
  match v with PStr r => String.eqb r s | _ => false end.

(** [type(v).__name__] *)
Definition type_name (v : pyval) : string :=
  match v with
  | PNone => "NoneType"
  | PBool _ => "bool"
  | PInt _ => "int"
  | PStr _ => "str"
  | PList _ => "list"
  | PDict _ => "dict"
  end.

(** Lookup of a key in a dict. *)
Fixpoint lookup (k : string) (d : dict) : option pyval :=
  match d with
  | [] => None
  | (k', v) :: r => if String.eqb k k' then Some v else lookup k r
  end.

(** [d.get(k, default)] on a dict. *)
Definition dict_get (d : dict) (k : string) (default : pyval) : pyval :=
  match lookup k d with
  | Some v => v
  | None => default
  end.

(* ================================================================== *)
(** ** [json.dumps(v, separators=(",", ":"))] *)
(* ================================================================== *)

Definition hex_digit (n : nat) : ascii :=
  match n with
  | 0 => "0" | 1 => "1" | 2 => "2" | 3 => "3" | 4 => "4" | 5 => "5"
  | 6 => "6" | 7 => "7" | 8 => "8" | 9 => "9" | 10 => "a" | 11 => "b"
  | 12 => "c" | 13 => "d" | 14 => "e" | _ => "f"
  end%char.

Definition quote : string := String (ascii_of_nat 34) EmptyString.

(** The line feed and the carriage return, the two line breaks. *)
Definition LF : ascii := ascii_of_nat 10.
Definition CR : ascii := ascii_of_nat 13.
Definition nl : string := String LF EmptyString.

(** The escape of one character with [ensure_ascii=True]: the printable
    ASCII characters stand for themselves, except the quote and the
    backslash; everything else is written as an escape sequence. *)
Definition escape_char (c : ascii) : string :=
  let n := nat_of_ascii c in
  if Nat.eqb n 34 then String "\" quote
  else if Nat.eqb n 92 then "\\"
  else if Nat.eqb n 10 then "\n"
  else if Nat.eqb n 13 then "\r"
  else if Nat.eqb n 9 then "\t"
  else if Nat.eqb n 8 then "\b"
  else if Nat.eqb n 12 then "\f"
  else if andb (Nat.leb 32 n) (Nat.leb n 126) then String c EmptyString
  else "\u00" ++ String (hex_digit (n / 16)) (String (hex_digit (n mod 16)) EmptyString).

Fixpoint escape_string (s : string) : string :=
  match s with
  | EmptyString => EmptyString
  | String c r => escape_char c ++ escape_string r
  end.

Definition dumps_str (s : string) : string := quote ++ escape_string s ++ quote.

Definition dumps_int (z : Z) : string := NilZero.string_of_int (Z.to_int z).

Fixpoint join (sep : string) (l : list string) : string :=
  match l with
  | [] => EmptyString
  | [x] => x
  | x :: r => x ++ sep ++ join sep r
  end.

Fixpoint json_dumps (v : pyval) : string :=
  match v with
  | PNone => "null"
  | PBool true => "true"
  | PBool false => "false"
  | PInt z => dumps_int z
  | PStr s => dumps_str s
  | PList l => "[" ++ join "," (map json_dumps l) ++ "]"
  | PDict d =>
      "{" ++ join "," (map (fun kv => dumps_str (fst kv) ++ ":" ++ json_dumps (snd kv)) d) ++ "}"
  end.

(* ================================================================== *)
(** ** Exceptions and the outcome of a call *)
(* ================================================================== *)

(** An exception is kept as its class and the text [str(e)].  Only
    subclasses of [Exception] are modelled: these are the ones that
    [except Exception] catches. *)
Record exn : Type := Exn { exn_class : string; exn_str : string }.

Inductive outcome (A : Type) : Type :=
| Ret (a : A)
| Raise (e : exn).
Arguments Ret {A} a.
Arguments Raise {A} e.

(** [v.attr] on a value without that attribute. *)
Definition AttributeError (v : pyval) (attr : string) : exn :=
  Exn "AttributeError" ("'" ++ type_name v ++ "' object has no attribute '" ++ attr ++ "'").

(** [d[k]] on a dict without the key [k]. *)
Definition KeyError (k : string) : exn := Exn "KeyError" ("'" ++ k ++ "'").

(** [l[i]] on a list that is too short. *)
Definition IndexError : exn := Exn "IndexError" "list index out of range".

(** [{"error": msg}] *)
Definition error_unit (msg : string) : pyval := PDict [("error", PStr msg)].

(* ================================================================== *)
(** ** utils.py *)
(* ================================================================== *)

Record JobInput : Type := mkJobInput {
  llm_input : pyval;
  stream : pyval;
  openai_route : pyval;
  openai_input : pyval
}.

(** [JobInput.__init__]: four calls of [job.get]. *)
Definition JobInput_init (job : pyval) : outcome JobInput :=
  match job with
  | PDict d =>
      Ret {| llm_input := dict_get d "messages" (dict_get d "prompt" PNone);
             stream := dict_get d "stream" (PBool false);
             openai_route := dict_get d "openai_route" PNone;
             openai_input := dict_get d "openai_input" PNone |}
  | _ => Raise (AttributeError job "get")
  end.

(* ================================================================== *)
(** ** The OpenAI client *)
(* ================================================================== *)

(** An entry of [client.models.list().data]. *)
Record Model : Type := mkModel {
  model_id : string;         (* model.id *)
  model_to_dict : pyval      (* model.to_dict() *)
}.

(** What [create] returns.  The code uses the object in one of two ways:
    it calls [to_dict()] on it, or it iterates over it and calls
    [to_dict()] on every chunk.  [resp_chunks] are the chunks the
    iteration delivers, each given as its [to_dict()], and [resp_fault]
    is the exception that ends the iteration instead of exhaustion. *)
Record Response : Type := mkResponse {
  resp_to_dict : outcome pyval;
  resp_chunks : list pyval;
  resp_fault : option exn
}.

(** The client over a server in some state.  [chat_create p] is the
    evaluation of [client.chat.completions.create( **p )] and
    [completions_create p] that of [client.completions.create( **p )],
    the unpacking of [p] included. *)
Record Client (server : Type) : Type := mkClient {
  models_list : server -> outcome (list Model) * server;
  chat_create : pyval -> server -> outcome Response * server;
  completions_create : pyval -> server -> outcome Response * server
}.
Arguments models_list {server} c s.
Arguments chat_create {server} c p s.
Arguments completions_create {server} c p s.

(** The calls made to the client, for the log. *)
Inductive call : Type :=
| ModelsList
| ChatCreate (payload : pyval)
| CompletionsCreate (payload : pyval).

Record world (server : Type) : Type := mkWorld {
  srv : server;
  calls : list call        (* oldest first *)
}.
Arguments mkWorld {server} srv calls.
Arguments srv {server} w.
Arguments calls {server} w.

(* ================================================================== *)
(** ** Generators *)
(* ================================================================== *)

(** A run of a generator body from a world: the units yielded, how the
    body ended, and the world it leaves. *)
Record run (server A : Type) : Type := Run {
  units : list pyval;
  result : outcome A;
  after : world server
}.
Arguments Run {server A} units result after.
Arguments units {server A} r.
Arguments result {server A} r.
Arguments after {server A} r.

Definition gen (server A : Type) : Type := world server -> run server A.

Section Generators.
Context {server : Type}.

Definition ret {A} (a : A) : gen server A := fun w => Run [] (Ret a) w.

Definition raise {A} (e : exn) : gen server A := fun w => Run [] (Raise e) w.

Definition lift {A} (o : outcome A) : gen server A := fun w => Run [] o w.

Definition yield (u : pyval) : gen server unit := fun w => Run [u] (Ret tt) w.

Definition bind {A B} (m : gen server A) (k : A -> gen server B) : gen server B :=
  fun w =>
    let r := m w in
    match result r with
    | Ret a =>
        let r' := k a (after r) in
        Run (units r ++ units r') (result r') (after r')
    | Raise e => Run (units r) (Raise e) (after r)
    end.

(** [try: body except Exception as e: handler(e)] *)
Definition try_except {A} (body : gen server A) (handler : exn -> gen server A)
  : gen server A :=
  fun w =>
    let r := body w in
    match result r with
    | Ret a => r
    | Raise e =>
        let r' := handler e (after r) in
        Run (units r ++ units r') (result r') (after r')
    end.

(** [for x in l: body(x)] over a list. *)
Fixpoint for_each {A} (l : list A) (body : A -> gen server unit) : gen server unit :=
  match l with
  | [] => ret tt
  | x :: r => bind (body x) (fun _ => for_each r body)
  end.
End Generators.

Declare Scope gen_scope.
Delimit Scope gen_scope with gen.
Notation "x <- m ;; k" := (bind m (fun x => k))
  (at level 100, m at next level, right associativity) : gen_scope.
Notation "m ;; k" := (bind m (fun _ => k))
  (at level 100, right associativity) : gen_scope.
Notation "'try' body 'except' e => handler" := (try_except body (fun e => handler))
  (at level 100, e name, body at level 200, handler at level 200) : gen_scope.

(* ================================================================== *)
(** ** engine.py *)
(* ================================================================== *)

Section Engine.
Context {server : Type} (client : Client server).
Open Scope gen_scope.

(** A call to the client: the server answers and the call is logged. *)
Definition client_call {A} (c : call) (f : server -> outcome A * server)
  : gen server A :=
  fun w =>
    let (o, s') := f (srv w) in
    Run [] o (mkWorld s' (calls w ++ [c])).

(** [client.models.list().data] *)
Definition client_models_list : gen server (list Model) :=
  client_call ModelsList (models_list client).

(** [client.chat.completions.create( **p )] *)
Definition client_chat_create (p : pyval) : gen server Response :=
  client_call (ChatCreate p) (chat_create client p).

(** [client.completions.create( **p )] *)
Definition client_completions_create (p : pyval) : gen server Response :=
  client_call (CompletionsCreate p) (completions_create client p).

(** [v.get(k, default)] on any value. *)
Definition py_get (v : pyval) (k : string) (default : pyval) : gen server pyval :=
  match v with
  | PDict d => ret (dict_get d k default)
  | _ => raise (AttributeError v "get")
  end.

(** [l[0]] *)
Definition first_item {A} (l : list A) : gen server A :=
  match l with
  | x :: _ => ret x
  | [] => raise IndexError
  end.

(** ["data: " + json.dumps(chunk.to_dict(), separators=(",", ":")) + "\n\n"] *)
Definition frame (chunk : pyval) : string :=
  "data: " ++ json_dumps chunk ++ nl ++ nl.

Definition DONE : string := "data: [DONE]".

(** [for chunk in response: body(chunk)]: the chunks in order, then the
    end of the iteration, which is exhaustion or an exception. *)
Definition iterate (response : Response) (body : pyval -> gen server unit)
  : gen server unit :=
  for_each (resp_chunks response) body ;;
  match resp_fault response with
  | None => ret tt
  | Some e => raise e
  end.

(** [LlamaCPPOpenAIEngine._handle_model_request] *)
Definition _handle_model_request : gen server unit :=
  try
    (data <- client_models_list ;;
     yield (PDict [("object", PStr "list");
                   ("data", PList (map model_to_dict data))]))
  except e =>
    yield (error_unit (exn_str e)).

(** [LlamaCPPOpenAIEngine._handle_chat_or_completion_request] *)
Definition _handle_chat_or_completion_request (openai_input : pyval) (chat : bool)
  : gen server unit :=
  try
    (response <- (if chat then client_chat_create openai_input
                  else client_completions_create openai_input) ;;
     streaming <- py_get openai_input "stream" (PBool false) ;;
     if negb (truthy streaming) then
       d <- lift (resp_to_dict response) ;;
       yield d
     else
       (iterate response (fun chunk => yield (PStr (frame chunk))) ;;
        yield (PStr DONE)))
  except e =>
    yield (error_unit (exn_str e)).

(** [LlamaCPPOpenAIEngine.generate]; each [async for ... yield] relays
    the units of the inner generator unchanged. *)
Definition OpenAI_generate (job_input : JobInput) : gen server unit :=
  let openai_input := openai_input job_input in
  if eq_str (openai_route job_input) "/v1/models" then
    _handle_model_request
  else if orb (eq_str (openai_route job_input) "/v1/chat/completions")
              (eq_str (openai_route job_input) "/v1/completions") then
    _handle_chat_or_completion_request openai_input
      (eq_str (openai_route job_input) "/v1/chat/completions")
  else
    yield (error_unit "invalid route").

(** The dict given to [JobInput] on each branch of
    [LlamaCPPEngine.generate]. *)
Definition completion_job (model : string) (job_input : JobInput) : pyval :=
  PDict [("openai_route", PStr "/v1/completions");
         ("openai_input",
           PDict [("model", PStr model);
                  ("prompt", llm_input job_input);
                  ("stream", stream job_input)])].

Definition chat_job (model : string) (job_input : JobInput) : pyval :=
  PDict [("openai_route", PStr "/v1/chat/completions");
         ("openai_input",
           PDict [("model", PStr model);
                  ("messages", llm_input job_input);
                  ("stream", stream job_input)])].

(** [LlamaCPPEngine.generate] *)
Definition LlamaCPP_generate (job_input : JobInput) : gen server unit :=
  data <- client_models_list ;;
  first <- first_item data ;;
  let model := model_id first in
  openAIjob <- lift (if isinstance_str (llm_input job_input)
                     then JobInput_init (completion_job model job_input)
                     else JobInput_init (chat_job model job_input)) ;;
  OpenAI_generate openAIjob.

(* ================================================================ *)
(** ** handler.py *)
(* ================================================================ *)

(** [job["input"]] *)
Definition subscript (d : dict) (k : string) : gen server pyval :=
  match lookup k d with
  | Some v => ret v
  | None => raise (KeyError k)
  end.

(** [handler]: the job is the dict the host hands over. *)
Definition handler (job : dict) : gen server unit :=
  input <- subscript job "input" ;;
  job_input <- lift (JobInput_init input) ;;
  if truthy (openai_route job_input)
  then OpenAI_generate job_input
  else LlamaCPP_generate job_input.
End Engine.

(* ================================================================== *)
(** ** Vocabulary of the statements *)
(* ================================================================== *)

Definition printable (c : ascii) : bool :=
  andb (Nat.leb 32 (nat_of_ascii c)) (Nat.leb (nat_of_ascii c) 126).

Fixpoint all_printable (s : string) : bool :=
  match s with
  | EmptyString => true
  | String c r => andb (printable c) (all_printable r)
  end.

(** [c in s] *)
Fixpoint occurs (c : ascii) (s : string) : bool :=
  match s with
  | EmptyString => false
  | String c' r => orb (Ascii.eqb c c') (occurs c r)
  end.

(** The payloads of the two shape-based routes. *)
Definition completion_payload (model : string) (prompt stream : pyval) : pyval :=
  PDict [("model", PStr model); ("prompt", prompt); ("stream", stream)].

Definition chat_payload (model : string) (messages stream : pyval) : pyval :=
  PDict [("model", PStr model); ("messages", messages); ("stream", stream)].

(** The call that a shape-routed job makes after the model is known. *)
Definition routed_call (model : string) (job_input : JobInput) : call :=
  if isinstance_str (llm_input job_input)
  then CompletionsCreate (completion_payload model (llm_input job_input) (stream job_input))
  else ChatCreate (chat_payload model (llm_input job_input) (stream job_input)).

Section Vocabulary.
Context {server : Type} (client : Client server).

(** The upstream call of a completion route, and its entry in the log. *)
Definition create (chat : bool) (p : pyval) : server -> outcome Response * server :=
  if chat then chat_create client p else completions_create client p.

Definition created (chat : bool) (p : pyval) : call :=
  if chat then ChatCreate p else CompletionsCreate p.

(** The reading of "an explicit route always wins" at one job: whenever
    the input map has an "openai_route" field, the handler behaves as the
    OpenAI engine on that route and on the "openai_input" field, whatever
    the other fields of the job are. *)
Definition explicit_route_wins (job input : dict) (w : world server) : Prop :=
  lookup "input" job = Some (PDict input) ->
  forall route, lookup "openai_route" input = Some route ->
  forall job_input,
    openai_route job_input = route ->
    openai_input job_input = dict_get input "openai_input" PNone ->
    handler client job w = OpenAI_generate client job_input w.

(** The answers of the client do not depend on the state of the
    server. *)
Definition stateless : Prop :=
  (forall s s', fst (models_list client s) = fst (models_list client s'))
  /\ (forall p s s', fst (chat_create client p s) = fst (chat_create client p s'))
  /\ (forall p s s',
        fst (completions_create client p s) = fst (completions_create client p s')).

Definition same_output {A} (r1 r2 : run server A) : Prop :=
  units r1 = units r2 /\ result r1 = result r2.

(** A generator whose units and result are the same from every world. *)
Definition oblivious {A} (g : gen server A) : Prop :=
  forall w1 w2, same_output (g w1) (g w2).

End Vocabulary.

(* ================================================================== *)
(** ** Example clients and jobs *)
(* ================================================================== *)

Definition llama : Model :=
  mkModel "llama-3" (PDict [("id", PStr "llama-3"); ("object", PStr "model")]).

Definition chunk1 : pyval := PDict [("id", PStr "c1"); ("text", PStr "Hel")].
Definition chunk2 : pyval := PDict [("id", PStr "c2"); ("text", PStr ("lo" ++ nl))].

Definition answer (p : pyval) : Response :=
  mkResponse (Ret (PDict [("object", PStr "text_completion"); ("echo", p)]))
             [chunk1; chunk2] None.

(** A server that answers the same way whatever its state; the state
    counts the requests it has served. *)
Definition steady : Client nat :=
  mkClient nat
    (fun s => (Ret [llama], S s))
    (fun p s => (Ret (answer p), S s))
    (fun p s => (Ret (answer p), S s)).

Definition ConnectionError : exn := Exn "APIConnectionError" "Connection error.".

(** A server that cannot be reached. *)
Definition unreachable : Client nat :=
  mkClient nat
    (fun s => (Raise ConnectionError, s))
    (fun _ s => (Raise ConnectionError, s))
    (fun _ s => (Raise ConnectionError, s)).

(** A server whose stream breaks after two chunks. *)
Definition breaking : Client nat :=
  mkClient nat
    (fun s => (Ret [llama], S s))
    (fun _ s => (Ret (mkResponse (Raise ConnectionError) [chunk1; chunk2] (Some ConnectionError)), S s))
    (fun _ s => (Ret (mkResponse (Raise ConnectionError) [chunk1; chunk2] (Some ConnectionError)), S s)).

Definition w0 : world nat := mkWorld 0 [].

Definition job_of (input : dict) : dict := [("id", PStr "job-1"); ("input", PDict input)].

Definition mistral : Model :=
  mkModel "mistral-7b" (PDict [("id", PStr "mistral-7b"); ("object", PStr "model")]).

(** A server that swaps the model it serves after every listing. *)
Definition rotating : Client nat :=
  mkClient nat
    (fun s => (Ret [if Nat.even s then llama else mistral], S s))
    (fun p s => (Ret (answer p), s))
    (fun p s => (Ret (answer p), s)).

(** A streaming completion payload, a raw input that names its route, and
    two normalized shape-routed jobs. *)
Definition stream_payload : dict :=
  [("model", PStr "llama-3"); ("prompt", PStr "hi"); ("stream", PBool true)].

Definition explicit_input : dict :=
  [("messages", PList [PStr "ignored"]);
   ("openai_route", PStr "/v1/completions");
   ("openai_input", PDict stream_payload)].

Definition prompt_job : JobInput := mkJobInput (PStr "hi") (PBool false) PNone PNone.

Definition empty_job : JobInput := mkJobInput PNone (PBool false) PNone PNone.

Definition unknown_route_job : JobInput :=
  mkJobInput PNone (PBool false) (PStr "/v1/embeddings") PNone.

Definition empty_route_input : dict :=
  [("prompt", PStr "hi"); ("openai_route", PStr EmptyString)].

(** The number of times a character occurs in a string. *)
Fixpoint count_char (c : ascii) (s : string) : nat :=
  match s with
  | EmptyString => 0
  | String c' r => (if Ascii.eqb c c' then 1 else 0) + count_char c r
  end.

(** The calls that ask for a completion. *)
Definition is_create (c : call) : bool :=
  match c with
  | ModelsList => false
  | ChatCreate _ | CompletionsCreate _ => true
  end.

(** A payload without a stream field, a raw input whose stream field is a
    non-empty string, a job without input, and two raw inputs with a falsy
    route that differ in what they carry besides the prompt. *)
Definition plain_payload : dict :=
  [("model", PStr "llama-3"); ("prompt", PStr "hi")].

Definition stream_text_input : dict :=
  [("prompt", PStr "hi"); ("stream", PStr "false")].

Definition job_without_input : dict := [("id", PStr "job-1")].

Definition stray_payload_input : dict :=
  [("prompt", PStr "hi"); ("openai_route", PNone);
   ("openai_input", PDict stream_payload)].

Definition models_input : dict :=
  [("openai_route", PStr "/v1/models"); ("openai_input", PStr "unused");
   ("prompt", PStr "hi")].

(** A server that serves no model. *)
Definition modelless : Client nat :=
  mkClient nat
    (fun s => (Ret [], S s))
    (fun p s => (Ret (answer p), S s))
    (fun p s => (Ret (answer p), S s)).

(* ================================================================== *)
(** ** The output of [json.dumps] is printable ASCII *)
(* ================================================================== *)

Lemma all_printable_app (a b : string) :
  all_printable (a ++ b) = andb (all_printable a) (all_printable b).
Proof.
  induction a as [|c a IH]; simpl; [reflexivity|].
  now rewrite IH, andb_assoc.
Qed.

Lemma printable_not_line_break (c : ascii) :
  printable c = true -> Ascii.eqb LF c = false /\ Ascii.eqb CR c = false.
Proof.
  intros H. split.
  - destruct (Ascii.eqb LF c) eqn:E; [|reflexivity].
    apply Ascii.eqb_eq in E. subst c. discriminate H.
  - destruct (Ascii.eqb CR c) eqn:E; [|reflexivity].
    apply Ascii.eqb_eq in E. subst c. discriminate H.
Qed.

Lemma printable_no_line_break (s : string) :
  all_printable s = true -> occurs LF s = false /\ occurs CR s = false.
Proof.
  induction s as [|c s IH]; cbn [all_printable occurs]; [now split|].
  intros H. apply andb_true_iff in H as [Hc Hs].
  destruct (IH Hs) as [H1 H2].
  destruct (printable_not_line_break c Hc) as [E1 E2].
  now rewrite H1, H2, E1, E2.
Qed.

Lemma escape_char_printable (c : ascii) : all_printable (escape_char c) = true.
Proof. destruct c as [[] [] [] [] [] [] [] []]; reflexivity. Qed.

Lemma escape_string_printable (s : string) : all_printable (escape_string s) = true.
Proof.
  induction s as [|c s IH]; simpl; [reflexivity|].
  now rewrite all_printable_app, escape_char_printable, IH.
Qed.

Lemma dumps_str_printable (s : string) : all_printable (dumps_str s) = true.
Proof.
  unfold dumps_str.
  now rewrite !all_printable_app, escape_string_printable.
Qed.

Lemma string_of_uint_printable (d : Decimal.uint) :
  all_printable (NilEmpty.string_of_uint d) = true.
Proof. induction d; simpl; auto. Qed.

Lemma dumps_int_printable (z : Z) : all_printable (dumps_int z) = true.
Proof.
  unfold dumps_int, NilZero.string_of_int, NilZero.string_of_uint.
  destruct (Z.to_int z) as [d|d]; destruct d; simpl;
    auto using string_of_uint_printable.
Qed.

Lemma join_printable (l : list string) :
  Forall (fun s => all_printable s = true) l ->
  all_printable (join "," l) = true.
Proof.
  induction 1 as [|x r Hx Hr IH]; [reflexivity|].
  destruct r as [|y r]; [exact Hx|].
  change (join "," (x :: y :: r)) with (x ++ "," ++ join "," (y :: r)).
  now rewrite !all_printable_app, Hx, IH.
Qed.

Lemma json_dumps_printable (v : pyval) : all_printable (json_dumps v) = true.
Proof.
  induction v as [| [] | z | s | l IH | d IH] using pyval_deep_ind;
    try reflexivity.
  - apply dumps_int_printable.
  - apply dumps_str_printable.
  - cbn [json_dumps]. rewrite !all_printable_app, join_printable; [reflexivity|].
    induction IH; constructor; auto.
  - cbn [json_dumps]. rewrite !all_printable_app, join_printable; [reflexivity|].
    induction IH as [|[k x] r Hx Hr IHr]; constructor; auto.
    cbn [fst snd] in *.
    now rewrite !all_printable_app, dumps_str_printable, Hx.
Qed.

Lemma json_dumps_one_line (v : pyval) :
  occurs LF (json_dumps v) = false /\ occurs CR (json_dumps v) = false.
Proof. apply printable_no_line_break, json_dumps_printable. Qed.

(* ================================================================== *)
(** ** Basic facts about values and generators *)
(* ================================================================== *)

Lemma occurs_app (c : ascii) (a b : string) :
  occurs c (a ++ b) = orb (occurs c a) (occurs c b).
Proof.
  induction a as [|x a IH]; cbn [occurs String.append]; [reflexivity|].
  now rewrite IH, orb_assoc.
Qed.

Lemma eq_str_true (v : pyval) (s : string) : eq_str v s = true <-> v = PStr s.
Proof.
  destruct v; cbn; try (split; [discriminate|discriminate]).
  rewrite String.eqb_eq. split; [now intros ->|now intros [= ->]].
Qed.

Lemma eq_str_false (v : pyval) (s : string) : eq_str v s = false <-> v <> PStr s.
Proof.
  rewrite <- eq_str_true. destruct (eq_str v s); split; congruence.
Qed.

Lemma run_eta {server A} (r : run server A) :
  Run (units r) (result r) (after r) = r.
Proof. now destruct r. Qed.

Section GeneratorFacts.
Context {server : Type}.

Lemma bind_ret {A B} (m : gen server A) (k : A -> gen server B) w a w' :
  m w = Run [] (Ret a) w' -> bind m k w = k a w'.
Proof. intros E. unfold bind. rewrite E. cbn. apply run_eta. Qed.

Lemma bind_raise {A B} (m : gen server A) (k : A -> gen server B) w us e w' :
  m w = Run us (Raise e) w' -> bind m k w = Run us (Raise e) w'.
Proof. intros E. unfold bind. now rewrite E. Qed.

Lemma for_each_yield {A} (f : A -> pyval) (l : list A) (w : world server) :
  for_each l (fun x => yield (f x)) w = Run (map f l) (Ret tt) w.
Proof.
  induction l as [|x l IH]; [reflexivity|].
  cbn [for_each map]. unfold bind at 1. cbn. now rewrite IH.
Qed.
End GeneratorFacts.

(* ================================================================== *)
(** ** The streaming path *)
(* ================================================================== *)

Section Claims.
Context {server : Type} (client : Client server).

Lemma client_create_run (chat : bool) (p : pyval) (w : world server) :
  (if chat then client_chat_create client p else client_completions_create client p) w
  = Run [] (fst (create client chat p (srv w)))
        (mkWorld (snd (create client chat p (srv w))) (calls w ++ [created chat p])).
Proof.
  unfold create, created, client_chat_create, client_completions_create, client_call.
  destruct chat.
  - now destruct (chat_create client p (srv w)).
  - now destruct (completions_create client p (srv w)).
Qed.

(** The run of a streaming call whose [create] succeeded: the frames of
    the chunks, then the sentinel or the error unit. *)
Lemma streaming_run (d : dict) (chat : bool) (w : world server) response s' :
  truthy (dict_get d "stream" (PBool false)) = true ->
  create client chat (PDict d) (srv w) = (Ret response, s') ->
  _handle_chat_or_completion_request client (PDict d) chat w
  = Run (map (fun c => PStr (frame c)) (resp_chunks response)
           ++ [match resp_fault response with
               | None => PStr DONE
               | Some e => error_unit (exn_str e)
               end])
        (Ret tt)
        (mkWorld s' (calls w ++ [created chat (PDict d)])).
Proof.
  intros Hs Hc.
  unfold _handle_chat_or_completion_request, try_except.
  rewrite (bind_ret _ _ w response (mkWorld s' (calls w ++ [created chat (PDict d)])))
    by (now rewrite client_create_run, Hc).
  unfold py_get.
  rewrite (bind_ret (ret (dict_get d "stream" (PBool false))) _ _ _ _ eq_refl), Hs.
  cbn [negb].
  unfold iterate, bind. rewrite for_each_yield. cbn [result units after].
  destruct (resp_fault response); cbn; now rewrite ?app_nil_r.
Qed.

(** C3: a streaming call that receives N chunks and no failure yields
    N+1 units: for each chunk, in order, the string "data: " followed by
    its compact JSON, which holds no line break, and by two line feeds;
    then the string "data: [DONE]" with nothing after it. *)
Theorem C3_stream_frames_then_done
    (d : dict) (chat : bool) (w : world server) response s' :
  truthy (dict_get d "stream" (PBool false)) = true ->
  create client chat (PDict d) (srv w) = (Ret response, s') ->
  resp_fault response = None ->
  let r := _handle_chat_or_completion_request client (PDict d) chat w in
  units r
  = (map (fun c => PStr ("data: " ++ json_dumps c ++ String LF (String LF EmptyString)))
         (resp_chunks response)
     ++ [PStr "data: [DONE]"])%list
  /\ length (units r) = length (resp_chunks response) + 1
  /\ Forall (fun c => occurs LF (json_dumps c) = false
                      /\ occurs CR (json_dumps c) = false)
            (resp_chunks response)
  /\ result r = Ret tt.
Proof.
  intros Hs Hc Hf r. subst r.
  rewrite (streaming_run d chat w response s' Hs Hc), Hf. cbn [units result].
  repeat split.
  - now rewrite length_app, length_map.
  - apply Forall_forall. intros c _. apply json_dumps_one_line.
Qed.

(** C4: when the iteration over the stream raises after k chunks, the
    call yields k+1 units: the k frames, then one error unit with the
    text of the exception; "data: [DONE]" is not among the units. *)
Theorem C4_stream_fault_after_k_chunks
    (d : dict) (chat : bool) (w : world server) response s' (e : exn) :
  truthy (dict_get d "stream" (PBool false)) = true ->
  create client chat (PDict d) (srv w) = (Ret response, s') ->
  resp_fault response = Some e ->
  let r := _handle_chat_or_completion_request client (PDict d) chat w in
  units r
  = (map (fun c => PStr ("data: " ++ json_dumps c ++ String LF (String LF EmptyString)))
         (resp_chunks response)
     ++ [PDict [("error", PStr (exn_str e))]])%list
  /\ length (units r) = length (resp_chunks response) + 1
  /\ ~ In (PStr "data: [DONE]") (units r)
  /\ result r = Ret tt.
Proof.
  intros Hs Hc Hf r. subst r.
  rewrite (streaming_run d chat w response s' Hs Hc), Hf. cbn [units result].
  repeat split.
  - now rewrite length_app, length_map.
  - intros H. apply in_app_or in H as [H|[H|[]]]; [|discriminate H].
    apply in_map_iff in H as (c & H & _).
    unfold frame in H. injection H as H.
    apply (f_equal (occurs LF)) in H.
    rewrite !occurs_app in H. cbn in H.
    rewrite orb_true_r in H. discriminate H.
Qed.
End Claims.

(* ================================================================== *)
(** ** Normalizing and routing *)
(* ================================================================== *)

(** C8: on a raw input map the normalizer takes [llm_input] from the
    "messages" field when the map has it and else from the "prompt" field
    (None when that is missing too), [stream] from the "stream" field with
    default False, and [openai_route] and [openai_input] from their fields
    with default None. *)
Theorem C8_normalizer_defaults (d : dict) :
  JobInput_init (PDict d)
  = Ret {| llm_input := match lookup "messages" d with
                        | Some messages => messages
                        | None => match lookup "prompt" d with
                                  | Some prompt => prompt
                                  | None => PNone
                                  end
                        end;
           stream := match lookup "stream" d with
                     | Some s => s
                     | None => PBool false
                     end;
           openai_route := match lookup "openai_route" d with
                           | Some route => route
                           | None => PNone
                           end;
           openai_input := match lookup "openai_input" d with
                           | Some payload => payload
                           | None => PNone
                           end |}.
Proof. reflexivity. Qed.

Section Routing.
Context {server : Type} (client : Client server).
Local Open Scope list_scope.

Lemma OpenAI_generate_chat (job_input : JobInput) :
  openai_route job_input = PStr "/v1/chat/completions" ->
  OpenAI_generate client job_input
  = _handle_chat_or_completion_request client (openai_input job_input) true.
Proof. intros E. unfold OpenAI_generate. now rewrite E. Qed.

Lemma OpenAI_generate_completions (job_input : JobInput) :
  openai_route job_input = PStr "/v1/completions" ->
  OpenAI_generate client job_input
  = _handle_chat_or_completion_request client (openai_input job_input) false.
Proof. intros E. unfold OpenAI_generate. now rewrite E. Qed.

(** The OpenAI engine reads the route and the payload of a job and
    nothing else. *)
Lemma OpenAI_generate_reads (a b : JobInput) :
  openai_route a = openai_route b ->
  openai_input a = openai_input b ->
  OpenAI_generate client a = OpenAI_generate client b.
Proof. intros E1 E2. unfold OpenAI_generate. now rewrite E1, E2. Qed.

(** Every run of a completion call logs exactly its one [create]. *)
Lemma handle_chat_or_completion_calls (p : pyval) (chat : bool) (w : world server) :
  calls (after (_handle_chat_or_completion_request client p chat w))
  = calls w ++ [created chat p].
Proof.
  unfold _handle_chat_or_completion_request, try_except.
  match goal with |- context [result (?b w)] => set (body := b) end.
  assert (Hb : calls (after (body w)) = calls w ++ [created chat p]).
  { subst body.
    pose proof (client_create_run client chat p w) as Hcall.
    destruct (create client chat p (srv w)) as [[response|e] s]; cbn [fst snd] in Hcall.
    2: now rewrite (bind_raise _ _ _ _ _ _ Hcall).
    rewrite (bind_ret _ _ _ _ _ Hcall).
    destruct p; cbn [py_get];
      try (now rewrite (bind_raise (raise _) _ _ [] _ _ eq_refl)).
    rewrite (bind_ret (ret _) _ _ _ _ eq_refl).
    destruct (negb (truthy (dict_get d "stream" (PBool false)))).
    - destruct (resp_to_dict response) as [a|e].
      + now rewrite (bind_ret (lift (Ret a)) _ _ _ _ eq_refl).
      + now rewrite (bind_raise (lift (Raise e)) _ _ [] _ _ eq_refl).
    - unfold iterate, bind. rewrite for_each_yield. cbn [result units after].
      now destruct (resp_fault response). }
  now destruct (body w) as [us [a|e] w1].
Qed.

(** The run of the shape-based engine once the model listing answered
    with at least one model. *)
Lemma LlamaCPP_generate_run (job_input : JobInput) (w : world server) m rest s' :
  models_list client (srv w) = (Ret (m :: rest), s') ->
  LlamaCPP_generate client job_input w
  = OpenAI_generate client
      (if isinstance_str (llm_input job_input)
       then mkJobInput PNone (PBool false) (PStr "/v1/completions")
              (completion_payload (model_id m) (llm_input job_input) (stream job_input))
       else mkJobInput PNone (PBool false) (PStr "/v1/chat/completions")
              (chat_payload (model_id m) (llm_input job_input) (stream job_input)))
      (mkWorld s' (calls w ++ [ModelsList])).
Proof.
  intros E. unfold LlamaCPP_generate.
  rewrite (bind_ret _ _ w (m :: rest) (mkWorld s' (calls w ++ [ModelsList])))
    by (unfold client_models_list, client_call; now rewrite E).
  rewrite (bind_ret (first_item (m :: rest)) _ _ _ _ eq_refl).
  destruct (isinstance_str (llm_input job_input));
    unfold bind, lift; cbn -[OpenAI_generate]; apply run_eta.
Qed.

Lemma LlamaCPP_generate_calls (job_input : JobInput) (w : world server) m rest s' :
  models_list client (srv w) = (Ret (m :: rest), s') ->
  calls (after (LlamaCPP_generate client job_input w))
  = calls w ++ [ModelsList; routed_call (model_id m) job_input].
Proof.
  intros E. rewrite (LlamaCPP_generate_run job_input w m rest s' E).
  unfold routed_call.
  destruct (isinstance_str (llm_input job_input)).
  - rewrite OpenAI_generate_completions, handle_chat_or_completion_calls by reflexivity.
    cbn. now rewrite <- app_assoc.
  - rewrite OpenAI_generate_chat, handle_chat_or_completion_calls by reflexivity.
    cbn. now rewrite <- app_assoc.
Qed.

(** C5: once the model is resolved, a shape-routed job whose [llm_input]
    is a string is dispatched on "/v1/completions" with the payload
    {model, prompt: llm_input, stream}, and one whose [llm_input] is a
    list on "/v1/chat/completions" with {model, messages: llm_input,
    stream}; stream is the job's stream field. *)
Theorem C5_shape_routing (job_input : JobInput) (w : world server) m rest s' :
  models_list client (srv w) = (Ret (m :: rest), s') ->
  let w' := mkWorld s' (calls w ++ [ModelsList]) in
  (forall prompt, llm_input job_input = PStr prompt ->
     let payload := PDict [("model", PStr (model_id m));
                           ("prompt", PStr prompt);
                           ("stream", stream job_input)] in
     LlamaCPP_generate client job_input w
     = OpenAI_generate client
         (mkJobInput PNone (PBool false) (PStr "/v1/completions") payload) w'
     /\ calls (after (LlamaCPP_generate client job_input w))
        = calls w ++ [ModelsList; CompletionsCreate payload])
  /\ (forall messages, llm_input job_input = PList messages ->
     let payload := PDict [("model", PStr (model_id m));
                           ("messages", PList messages);
                           ("stream", stream job_input)] in
     LlamaCPP_generate client job_input w
     = OpenAI_generate client
         (mkJobInput PNone (PBool false) (PStr "/v1/chat/completions") payload) w'
     /\ calls (after (LlamaCPP_generate client job_input w))
        = calls w ++ [ModelsList; ChatCreate payload]).
Proof.
  intros E w'. split; intros x Hx payload; subst payload; split.
  - rewrite (LlamaCPP_generate_run job_input w m rest s' E), Hx. reflexivity.
  - rewrite (LlamaCPP_generate_calls job_input w m rest s' E).
    unfold routed_call. now rewrite Hx.
  - rewrite (LlamaCPP_generate_run job_input w m rest s' E), Hx. reflexivity.
  - rewrite (LlamaCPP_generate_calls job_input w m rest s' E).
    unfold routed_call. now rewrite Hx.
Qed.

(** C9: once the model is resolved, every [llm_input] that is not a string
    takes the chat branch: the job is dispatched on
    "/v1/chat/completions" with messages set to that value.  None is such
    a value, and it is what the normalizer gives for a map with neither
    "messages" nor "prompt".  A [completions.create] call is made for
    string inputs only. *)
Theorem C9_non_string_takes_chat_branch (w : world server) m rest s' :
  models_list client (srv w) = (Ret (m :: rest), s') ->
  let w' := mkWorld s' (calls w ++ [ModelsList]) in
  (forall job_input, (forall s, llm_input job_input <> PStr s) ->
     let payload := PDict [("model", PStr (model_id m));
                           ("messages", llm_input job_input);
                           ("stream", stream job_input)] in
     LlamaCPP_generate client job_input w
     = OpenAI_generate client
         (mkJobInput PNone (PBool false) (PStr "/v1/chat/completions") payload) w'
     /\ calls (after (LlamaCPP_generate client job_input w))
        = calls w ++ [ModelsList; ChatCreate payload])
  /\ (forall d, lookup "messages" d = None -> lookup "prompt" d = None ->
        exists job_input,
          JobInput_init (PDict d) = Ret job_input /\ llm_input job_input = PNone)
  /\ (forall job_input p,
        In (CompletionsCreate p) (skipn (length (calls w))
              (calls (after (LlamaCPP_generate client job_input w)))) ->
        exists s, llm_input job_input = PStr s).
Proof.
  intros E w'. split; [|split].
  - intros job_input Hns payload. subst payload.
    assert (Hi : isinstance_str (llm_input job_input) = false).
    { destruct (llm_input job_input); try reflexivity. now elim (Hns s). }
    split.
    + rewrite (LlamaCPP_generate_run job_input w m rest s' E), Hi. reflexivity.
    + rewrite (LlamaCPP_generate_calls job_input w m rest s' E).
      unfold routed_call. now rewrite Hi.
  - intros d Hm Hp. eexists. split; [reflexivity|].
    cbn. unfold dict_get. now rewrite Hm, Hp.
  - intros job_input p.
    rewrite (LlamaCPP_generate_calls job_input w m rest s' E).
    rewrite skipn_app, skipn_all, Nat.sub_diag. cbn [app skipn].
    unfold routed_call.
    destruct (llm_input job_input); cbn [isinstance_str];
      intros [H|[H|[]]]; try discriminate H.
    now eexists.
Qed.

(** C7: for a job whose [openai_route] is none of "/v1/models",
    "/v1/completions" and "/v1/chat/completions", the OpenAI engine
    yields the one unit {"error": "invalid route"} and ends; the world is
    left as it was, so the client was not called. *)
Theorem C7_invalid_route (job_input : JobInput) (w : world server) :
  openai_route job_input <> PStr "/v1/models" ->
  openai_route job_input <> PStr "/v1/completions" ->
  openai_route job_input <> PStr "/v1/chat/completions" ->
  OpenAI_generate client job_input w
  = Run [PDict [("error", PStr "invalid route")]] (Ret tt) w.
Proof.
  intros H1 H2 H3. unfold OpenAI_generate.
  apply eq_str_false in H1, H2, H3. now rewrite H1, H2, H3.
Qed.
End Routing.

(* ================================================================== *)
(** ** Model resolution *)
(* ================================================================== *)

Section ModelResolution.
Context {server : Type} (client : Client server).
Local Open Scope list_scope.

(** A fault of the model listing, or an empty list of models, leaves
    [LlamaCPPEngine.generate] as an exception: nothing is yielded. *)
Lemma LlamaCPP_generate_listing_fault (job_input : JobInput) (w : world server) e s' :
  models_list client (srv w) = (Raise e, s') ->
  LlamaCPP_generate client job_input w
  = Run [] (Raise e) (mkWorld s' (calls w ++ [ModelsList])).
Proof.
  intros E. unfold LlamaCPP_generate.
  apply bind_raise. unfold client_models_list, client_call. now rewrite E.
Qed.

Lemma LlamaCPP_generate_no_model (job_input : JobInput) (w : world server) s' :
  models_list client (srv w) = (Ret [], s') ->
  LlamaCPP_generate client job_input w
  = Run [] (Raise IndexError) (mkWorld s' (calls w ++ [ModelsList])).
Proof.
  intros E. unfold LlamaCPP_generate.
  rewrite (bind_ret _ _ w [] (mkWorld s' (calls w ++ [ModelsList])))
    by (unfold client_models_list, client_call; now rewrite E).
  now apply bind_raise.
Qed.

(** C6: every run of [LlamaCPPEngine.generate] starts with its own
    model listing and sends the id of the first model of that answer:
    of two runs in a row, the first uses the model listed in the state
    the server had then, the second the model listed in the state the
    first run left behind. *)
Theorem C6_model_resolved_on_every_call
    (job1 job2 : JobInput) (w : world server) m1 rest1 s1 m2 rest2 s2 :
  models_list client (srv w) = (Ret (m1 :: rest1), s1) ->
  let r1 := LlamaCPP_generate client job1 w in
  models_list client (srv (after r1)) = (Ret (m2 :: rest2), s2) ->
  let r2 := LlamaCPP_generate client job2 (after r1) in
  calls (after r1) = calls w ++ [ModelsList; routed_call (model_id m1) job1]
  /\ calls (after r2)
     = calls w ++ [ModelsList; routed_call (model_id m1) job1;
                   ModelsList; routed_call (model_id m2) job2].
Proof.
  intros E1 r1 E2 r2. subst r2.
  rewrite (LlamaCPP_generate_calls client job2 (after r1) m2 rest2 s2 E2).
  subst r1.
  rewrite (LlamaCPP_generate_calls client job1 w m1 rest1 s1 E1).
  split; [reflexivity|]. now rewrite <- app_assoc.
Qed.
End ModelResolution.

(* ================================================================== *)
(** ** Faults *)
(* ================================================================== *)

Section Faults.
Context {server : Type} (client : Client server).

Lemma try_except_yield_total (body : gen server unit) (w : world server) :
  result (try_except body (fun e => yield (error_unit (exn_str e))) w) = Ret tt.
Proof.
  unfold try_except. destruct (body w) as [us [[]|e] w']; reflexivity.
Qed.

(** The OpenAI engine ends normally on every job: what the client
    raises there is turned into an error unit. *)
Lemma OpenAI_generate_total (job_input : JobInput) (w : world server) :
  result (OpenAI_generate client job_input w) = Ret tt.
Proof.
  unfold OpenAI_generate.
  destruct (eq_str (openai_route job_input) "/v1/models");
    [apply try_except_yield_total|].
  destruct (orb _ _); [apply try_except_yield_total|reflexivity].
Qed.
End Faults.

(** C1: with a server that cannot be reached, the job {"prompt": "hi"}
    does not end in an error unit: the exception of the model listing of
    [LlamaCPPEngine.generate] leaves the handler, and no unit is
    yielded. *)
Theorem C1_listing_fault_escapes :
  handler unreachable (job_of [("prompt", PStr "hi")]) w0
  = Run [] (Raise ConnectionError) (mkWorld 0 [ModelsList]).
Proof. reflexivity. Qed.

(* ================================================================== *)
(** ** The explicit route *)
(* ================================================================== *)

Section ExplicitRoute.
Context {server : Type} (client : Client server).
Local Open Scope list_scope.

Lemma handler_run (job input : dict) (w : world server) job_input :
  lookup "input" job = Some (PDict input) ->
  JobInput_init (PDict input) = Ret job_input ->
  handler client job w
  = if truthy (openai_route job_input)
    then OpenAI_generate client job_input w
    else LlamaCPP_generate client job_input w.
Proof.
  intros Hi Hj. unfold handler, subscript. rewrite Hi.
  rewrite (bind_ret (ret (PDict input)) _ _ _ _ eq_refl), Hj.
  rewrite (bind_ret (lift (Ret job_input)) _ _ _ _ eq_refl).
  now destruct (truthy (openai_route job_input)).
Qed.

(** Through the handler, a truthy route outside the three routes gives
    the invalid-route unit and no call of the client. *)
Lemma handler_invalid_route (job input : dict) (w : world server) job_input :
  lookup "input" job = Some (PDict input) ->
  JobInput_init (PDict input) = Ret job_input ->
  truthy (openai_route job_input) = true ->
  openai_route job_input <> PStr "/v1/models" ->
  openai_route job_input <> PStr "/v1/completions" ->
  openai_route job_input <> PStr "/v1/chat/completions" ->
  handler client job w = Run [error_unit "invalid route"] (Ret tt) w.
Proof.
  intros Hi Hj Ht H1 H2 H3.
  rewrite (handler_run job input w job_input Hi Hj), Ht.
  unfold OpenAI_generate.
  apply eq_str_false in H1, H2, H3. now rewrite H1, H2, H3.
Qed.

(** C2, amended: when the input map has an "openai_route" field whose
    value is truthy, the handler behaves as the OpenAI engine on that
    route and on the "openai_input" field, whatever the other fields of
    the job are, and on the two completion routes the payload is what the
    client is called with; when the field is there with a falsy value,
    the job is routed by the shape of [llm_input]. *)
Theorem C2_truthy_route_wins (job input : dict) (w : world server) route :
  lookup "input" job = Some (PDict input) ->
  lookup "openai_route" input = Some route ->
  let payload := dict_get input "openai_input" PNone in
  (truthy route = true ->
     (forall job_input,
        openai_route job_input = route ->
        openai_input job_input = payload ->
        handler client job w = OpenAI_generate client job_input w)
     /\ (route = PStr "/v1/chat/completions" ->
         calls (after (handler client job w)) = calls w ++ [ChatCreate payload])
     /\ (route = PStr "/v1/completions" ->
         calls (after (handler client job w)) = calls w ++ [CompletionsCreate payload]))
  /\ (truthy route = false ->
      handler client job w
      = LlamaCPP_generate client
          (mkJobInput (dict_get input "messages" (dict_get input "prompt" PNone))
                      (dict_get input "stream" (PBool false)) route payload) w).
Proof.
  intros Hi Hr payload.
  set (normalized := mkJobInput _ _ route payload).
  assert (Hj : JobInput_init (PDict input) = Ret normalized).
  { subst normalized payload. cbn [JobInput_init]. do 2 f_equal.
    unfold dict_get. now rewrite Hr. }
  pose proof (handler_run job input w normalized Hi Hj) as H.
  cbn [openai_route normalized] in H.
  split; intros Ht; rewrite Ht in H; [|exact H].
  assert (Hw : forall job_input,
             openai_route job_input = route ->
             openai_input job_input = payload ->
             handler client job w = OpenAI_generate client job_input w).
  { intros job_input E1 E2. rewrite H.
    apply (f_equal (fun g => g w)), OpenAI_generate_reads.
    - cbn. now rewrite E1.
    - cbn. now rewrite E2. }
  split; [exact Hw|split]; intros ->.
  - rewrite (Hw (mkJobInput PNone PNone (PStr "/v1/chat/completions") payload))
      by reflexivity.
    rewrite OpenAI_generate_chat by reflexivity.
    apply handle_chat_or_completion_calls.
  - rewrite (Hw (mkJobInput PNone PNone (PStr "/v1/completions") payload))
      by reflexivity.
    rewrite OpenAI_generate_completions by reflexivity.
    apply handle_chat_or_completion_calls.
Qed.
End ExplicitRoute.

(** C2 fails as stated: the input map {"prompt": "hi", "openai_route": ""}
    has an "openai_route" field, and the handler does not dispatch on it. *)
Lemma C2_empty_route_is_shape_routed :
  ~ explicit_route_wins steady (job_of empty_route_input) empty_route_input w0.
Proof.
  intros H.
  specialize (H eq_refl (PStr EmptyString) eq_refl
                (mkJobInput (PStr "hi") (PBool false) (PStr EmptyString) PNone)
                eq_refl eq_refl).
  vm_compute in H. discriminate H.
Qed.

(* ================================================================== *)
(** ** Repeating a job *)
(* ================================================================== *)

Section Repetition.
Context {server : Type} (client : Client server).

Lemma oblivious_const {A} (us : list pyval) (o : outcome A) :
  oblivious (fun w : world server => Run us o w).
Proof. intros w1 w2. now split. Qed.

Lemma oblivious_bind {A B} (m : gen server A) (k : A -> gen server B) :
  oblivious m -> (forall a, oblivious (k a)) -> oblivious (bind m k).
Proof.
  intros Hm Hk w1 w2. unfold bind.
  destruct (Hm w1 w2) as [Hu Hr]. rewrite Hu, Hr.
  destruct (result (m w2)) as [a|e]; [|now split].
  destruct (Hk a (after (m w1)) (after (m w2))) as [Hu' Hr'].
  split; cbn; congruence.
Qed.

Lemma oblivious_try_except {A} (body : gen server A) (h : exn -> gen server A) :
  oblivious body -> (forall e, oblivious (h e)) -> oblivious (try_except body h).
Proof.
  intros Hb Hh w1 w2. unfold try_except.
  destruct (Hb w1 w2) as [Hu Hr]. rewrite Hr.
  destruct (result (body w2)) as [a|e] eqn:E; [now split; rewrite ?E|].
  destruct (Hh e (after (body w1)) (after (body w2))) as [Hu' Hr'].
  split; cbn; congruence.
Qed.

Lemma oblivious_for_each {A} (l : list A) (body : A -> gen server unit) :
  (forall x, oblivious (body x)) -> oblivious (for_each l body).
Proof.
  intros Hb. induction l as [|x l IH]; cbn [for_each].
  - apply oblivious_const.
  - apply oblivious_bind; auto.
Qed.

Lemma oblivious_client_call {A} (c : call) (f : server -> outcome A * server) :
  (forall s s', fst (f s) = fst (f s')) -> oblivious (client_call c f).
Proof.
  intros Hf w1 w2. unfold client_call.
  specialize (Hf (srv w1) (srv w2)).
  destruct (f (srv w1)), (f (srv w2)). cbn in Hf. subst. now split.
Qed.

Hypothesis client_stateless : stateless client.

Lemma oblivious_handle_model_request : oblivious (_handle_model_request client).
Proof.
  apply oblivious_try_except; [|intros; apply oblivious_const].
  apply oblivious_bind; [|intros; apply oblivious_const].
  apply oblivious_client_call, client_stateless.
Qed.

Lemma oblivious_handle_chat_or_completion_request (p : pyval) (chat : bool) :
  oblivious (_handle_chat_or_completion_request client p chat).
Proof.
  destruct client_stateless as (_ & Hchat & Hcompl).
  apply oblivious_try_except; [|intros; apply oblivious_const].
  apply oblivious_bind.
  { destruct chat; apply oblivious_client_call; auto. }
  intros response. apply oblivious_bind.
  { destruct p; apply oblivious_const. }
  intros streaming. destruct (negb (truthy streaming)).
  - apply oblivious_bind; intros; apply oblivious_const.
  - apply oblivious_bind; [|intros; apply oblivious_const].
    apply oblivious_bind.
    + apply oblivious_for_each. intros; apply oblivious_const.
    + intros _. destruct (resp_fault response); apply oblivious_const.
Qed.

Lemma oblivious_OpenAI_generate (job_input : JobInput) :
  oblivious (OpenAI_generate client job_input).
Proof.
  unfold OpenAI_generate.
  destruct (eq_str _ "/v1/models"); [apply oblivious_handle_model_request|].
  destruct (orb _ _); [apply oblivious_handle_chat_or_completion_request|].
  apply oblivious_const.
Qed.

Lemma oblivious_LlamaCPP_generate (job_input : JobInput) :
  oblivious (LlamaCPP_generate client job_input).
Proof.
  apply oblivious_bind.
  { apply oblivious_client_call, client_stateless. }
  intros data. apply oblivious_bind.
  { destruct data; apply oblivious_const. }
  intros first. apply oblivious_bind; [apply oblivious_const|].
  intros openAIjob. apply oblivious_OpenAI_generate.
Qed.

Lemma oblivious_handler (job : dict) : oblivious (handler client job).
Proof.
  apply oblivious_bind.
  { unfold subscript. destruct (lookup "input" job); apply oblivious_const. }
  intros input. apply oblivious_bind; [apply oblivious_const|].
  intros job_input. destruct (truthy (openai_route job_input)).
  - apply oblivious_OpenAI_generate.
  - apply oblivious_LlamaCPP_generate.
Qed.
End Repetition.

(** C10: against a client whose answers do not depend on the state of the
    server, running a job and then running it again yields the same units,
    one for one, and ends the same way; and so do two runs from any two
    worlds. *)
Theorem C10_repeated_job_same_output
    {server : Type} (client : Client server) (job : dict) (w : world server) :
  stateless client ->
  let first := handler client job w in
  let second := handler client job (after first) in
  (units first = units second /\ result first = result second)
  /\ (forall w1 w2,
        units (handler client job w1) = units (handler client job w2)
        /\ result (handler client job w1) = result (handler client job w2)).
Proof.
  intros H first second. split.
  - apply (oblivious_handler client H job).
  - intros w1 w2. apply (oblivious_handler client H job).
Qed.

(* ================================================================== *)
(** ** The theorems at work on the example clients *)
(* ================================================================== *)

Lemma C3_witness :
  units (_handle_chat_or_completion_request steady (PDict stream_payload) false w0)
  = [PStr (frame chunk1); PStr (frame chunk2); PStr "data: [DONE]"]
  /\ length (units (_handle_chat_or_completion_request steady (PDict stream_payload) false w0))
     = 3.
Proof.
  pose proof (C3_stream_frames_then_done steady stream_payload false w0
                (answer (PDict stream_payload)) 1 eq_refl eq_refl eq_refl) as H.
  split; [exact (proj1 H)|exact (proj1 (proj2 H))].
Defined.

Lemma C4_witness :
  units (_handle_chat_or_completion_request breaking (PDict stream_payload) true w0)
  = [PStr (frame chunk1); PStr (frame chunk2);
     PDict [("error", PStr "Connection error.")]]
  /\ ~ In (PStr "data: [DONE]")
        (units (_handle_chat_or_completion_request breaking (PDict stream_payload) true w0)).
Proof.
  pose proof (C4_stream_fault_after_k_chunks breaking stream_payload true w0
                (mkResponse (Raise ConnectionError) [chunk1; chunk2] (Some ConnectionError))
                1 ConnectionError eq_refl eq_refl eq_refl) as H.
  split; [exact (proj1 H)|exact (proj1 (proj2 (proj2 H)))].
Defined.

Lemma C5_witness :
  calls (after (LlamaCPP_generate steady prompt_job w0))
  = [ModelsList;
     CompletionsCreate (PDict [("model", PStr "llama-3"); ("prompt", PStr "hi");
                               ("stream", PBool false)])].
Proof.
  exact (proj2 (proj1 (C5_shape_routing steady prompt_job w0 llama [] 1 eq_refl)
                  "hi" eq_refl)).
Defined.

Lemma C6_witness :
  calls (after (LlamaCPP_generate rotating prompt_job
                  (after (LlamaCPP_generate rotating prompt_job w0))))
  = [ModelsList; routed_call "llama-3" prompt_job;
     ModelsList; routed_call "mistral-7b" prompt_job].
Proof.
  exact (proj2 (C6_model_resolved_on_every_call rotating prompt_job prompt_job w0
                  llama [] 1 mistral [] 2 eq_refl eq_refl)).
Defined.

Lemma C7_witness :
  OpenAI_generate steady unknown_route_job w0
  = Run [PDict [("error", PStr "invalid route")]] (Ret tt) w0.
Proof.
  apply (C7_invalid_route steady unknown_route_job w0); discriminate.
Defined.

Lemma C9_witness :
  calls (after (LlamaCPP_generate steady empty_job w0))
  = [ModelsList;
     ChatCreate (PDict [("model", PStr "llama-3"); ("messages", PNone);
                        ("stream", PBool false)])].
Proof.
  refine (proj2 (proj1 (C9_non_string_takes_chat_branch steady w0 llama [] 1 eq_refl)
                   empty_job _)).
  discriminate.
Defined.

Lemma steady_stateless : stateless steady.
Proof. repeat split. Defined.

Lemma C10_witness :
  units (handler steady (job_of explicit_input) w0)
  = units (handler steady (job_of explicit_input)
             (after (handler steady (job_of explicit_input) w0))).
Proof.
  exact (proj1 (proj1 (C10_repeated_job_same_output steady (job_of explicit_input) w0
                         steady_stateless))).
Defined.

Lemma C2_witness :
  handler steady (job_of explicit_input) w0
  = OpenAI_generate steady
      (mkJobInput PNone PNone (PStr "/v1/completions") (PDict stream_payload)) w0
  /\ calls (after (handler steady (job_of explicit_input) w0))
     = [CompletionsCreate (PDict stream_payload)].
Proof.
  pose proof (proj1 (C2_truthy_route_wins steady (job_of explicit_input) explicit_input w0
                       (PStr "/v1/completions") eq_refl eq_refl) eq_refl) as H.
  split.
  - exact (proj1 H (mkJobInput PNone PNone (PStr "/v1/completions") (PDict stream_payload))
             eq_refl eq_refl).
  - exact (proj2 (proj2 H) eq_refl).
Defined.

(* ================================================================== *)
(** ** The OpenAI engine, case by case *)
(* ================================================================== *)

Section OpenAIEngine.
Context {server : Type} (client : Client server).
Local Open Scope list_scope.

(** The run of a completion call in full: what is yielded depends on the
    answer of [create], on the payload being a dict, and on the truth
    value of its stream field. *)
Lemma handle_chat_or_completion_run (p : pyval) (chat : bool) (w : world server) :
  _handle_chat_or_completion_request client p chat w
  = Run
      match fst (create client chat p (srv w)) with
      | Raise e => [error_unit (exn_str e)]
      | Ret response =>
          match p with
          | PDict d =>
              if truthy (dict_get d "stream" (PBool false))
              then map (fun c => PStr (frame c)) (resp_chunks response)
                   ++ [match resp_fault response with
                       | None => PStr DONE
                       | Some e => error_unit (exn_str e)
                       end]
              else [match resp_to_dict response with
                    | Ret body => body
                    | Raise e => error_unit (exn_str e)
                    end]
          | _ => [error_unit (exn_str (AttributeError p "get"))]
          end
      end
      (Ret tt)
      (mkWorld (snd (create client chat p (srv w))) (calls w ++ [created chat p])).
Proof.
  pose proof (client_create_run client chat p w) as Hcall.
  destruct (create client chat p (srv w)) as [[response|e] s] eqn:Hc;
    cbn [fst snd] in *.
  2: { unfold _handle_chat_or_completion_request, try_except.
       now rewrite (bind_raise _ _ _ _ _ _ Hcall). }
  destruct p as [| b | z | t | l | d];
    try (unfold _handle_chat_or_completion_request, try_except;
         rewrite (bind_ret _ _ _ _ _ Hcall); cbn [py_get];
         now rewrite (bind_raise (raise _) _ _ [] _ _ eq_refl)).
  destruct (truthy (dict_get d "stream" (PBool false))) eqn:Hs.
  - now rewrite (streaming_run client d chat w response s Hs Hc).
  - unfold _handle_chat_or_completion_request, try_except.
    rewrite (bind_ret _ _ _ _ _ Hcall). unfold py_get.
    rewrite (bind_ret (ret (dict_get d "stream" (PBool false))) _ _ _ _ eq_refl), Hs.
    cbn [negb]. destruct (resp_to_dict response) as [v|e].
    + now rewrite (bind_ret (lift (Ret v)) _ _ _ _ eq_refl).
    + now rewrite (bind_raise (lift (Raise e)) _ _ [] _ _ eq_refl).
Qed.

Lemma handle_model_request_run (w : world server) :
  _handle_model_request client w
  = Run [match fst (models_list client (srv w)) with
         | Ret data => PDict [("object", PStr "list");
                              ("data", PList (map model_to_dict data))]
         | Raise e => error_unit (exn_str e)
         end]
        (Ret tt)
        (mkWorld (snd (models_list client (srv w))) (calls w ++ [ModelsList])).
Proof.
  unfold _handle_model_request, try_except, bind, client_models_list, client_call.
  now destruct (models_list client (srv w)) as [[data|e] s].
Qed.

Lemma OpenAI_generate_calls (job_input : JobInput) (w : world server) :
  calls (after (OpenAI_generate client job_input w))
  = calls w
    ++ (if eq_str (openai_route job_input) "/v1/models" then [ModelsList]
        else if eq_str (openai_route job_input) "/v1/chat/completions"
        then [ChatCreate (openai_input job_input)]
        else if eq_str (openai_route job_input) "/v1/completions"
        then [CompletionsCreate (openai_input job_input)]
        else []).
Proof.
  unfold OpenAI_generate.
  destruct (eq_str (openai_route job_input) "/v1/models").
  { now rewrite handle_model_request_run. }
  destruct (eq_str (openai_route job_input) "/v1/chat/completions"); cbn [orb].
  { now rewrite handle_chat_or_completion_calls. }
  destruct (eq_str (openai_route job_input) "/v1/completions").
  { now rewrite handle_chat_or_completion_calls. }
  cbn. now rewrite app_nil_r.
Qed.

Lemma OpenAI_generate_yields (job_input : JobInput) (w : world server) :
  units (OpenAI_generate client job_input w) <> [].
Proof.
  unfold OpenAI_generate.
  destruct (eq_str (openai_route job_input) "/v1/models").
  { now rewrite handle_model_request_run. }
  destruct (orb _ _); [|discriminate].
  rewrite handle_chat_or_completion_run. cbn [units].
  destruct (fst (create client _ _ _)) as [response|e]; [|discriminate].
  destruct (openai_input job_input); try discriminate.
  destruct (truthy _); [|discriminate].
  now destruct (map _ (resp_chunks response)).
Qed.

(** X1: a model-listing request yields exactly one unit and ends
    normally after one call of [client.models.list]: the dict
    {"object": "list", "data": [...]} with one entry per model, in order,
    when the call returns, and the error dict with the text of the
    exception when it raises. *)
Theorem X1_model_listing_one_unit (w : world server) :
  let r := _handle_model_request client w in
  length (units r) = 1
  /\ result r = Ret tt
  /\ calls (after r) = calls w ++ [ModelsList]
  /\ (forall data s', models_list client (srv w) = (Ret data, s') ->
        units r = [PDict [("object", PStr "list");
                          ("data", PList (map model_to_dict data))]])
  /\ (forall e s', models_list client (srv w) = (Raise e, s') ->
        units r = [PDict [("error", PStr (exn_str e))]]).
Proof.
  intros r. subst r. rewrite handle_model_request_run. cbn [units result after calls].
  repeat split; intros ? ? E; now rewrite E.
Qed.

(** X2: when the payload is a dict whose "stream" value is missing or
    falsy and [create] returns, the call yields exactly one unit, the
    [to_dict()] of the response (or the error dict when [to_dict] raises),
    and the response is not iterated: no frame and no "data: [DONE]". *)
Theorem X2_non_streaming_one_unit
    (d : dict) (chat : bool) (w : world server) response s' :
  truthy (dict_get d "stream" (PBool false)) = false ->
  create client chat (PDict d) (srv w) = (Ret response, s') ->
  _handle_chat_or_completion_request client (PDict d) chat w
  = Run [match resp_to_dict response with
         | Ret body => body
         | Raise e => PDict [("error", PStr (exn_str e))]
         end]
        (Ret tt)
        (mkWorld s' (calls w ++ [if chat then ChatCreate (PDict d)
                                 else CompletionsCreate (PDict d)])).
Proof.
  intros Hs Hc. rewrite handle_chat_or_completion_run, Hc, Hs. reflexivity.
Qed.

(** X3: when [create] itself raises, whatever the payload and its stream
    flag, the call yields exactly one unit, the error dict with the text
    of the exception, and ends normally. *)
Theorem X3_create_fault_one_error_unit
    (p : pyval) (chat : bool) (w : world server) e s' :
  create client chat p (srv w) = (Raise e, s') ->
  _handle_chat_or_completion_request client p chat w
  = Run [PDict [("error", PStr (exn_str e))]] (Ret tt)
        (mkWorld s' (calls w ++ [if chat then ChatCreate p else CompletionsCreate p])).
Proof.
  intros Hc. rewrite handle_chat_or_completion_run, Hc. reflexivity.
Qed.

(** X4: on every job and with every client, [LlamaCPPOpenAIEngine.generate]
    ends normally, yields at least one unit, and adds at most one call to
    the log of the client. *)
Theorem X4_openai_engine_contract (job_input : JobInput) (w : world server) :
  let r := OpenAI_generate client job_input w in
  result r = Ret tt
  /\ units r <> []
  /\ exists made, calls (after r) = calls w ++ made /\ length made <= 1.
Proof.
  intros r. subst r. split; [apply OpenAI_generate_total|].
  split; [apply OpenAI_generate_yields|].
  rewrite OpenAI_generate_calls. eexists. split; [reflexivity|].
  repeat (match goal with |- context [if ?b then _ else _] => destruct b end);
    cbn; lia.
Qed.

End OpenAIEngine.

(* ================================================================== *)
(** ** The handler, from the raw job to the units *)
(* ================================================================== *)

Section Handler.
Context {server : Type} (client : Client server).
Local Open Scope list_scope.

(** The shape-routing engine by the answer of the model listing. *)
Lemma LlamaCPP_generate_cases (job_input : JobInput) (w : world server) :
  let w' := mkWorld (snd (models_list client (srv w))) (calls w ++ [ModelsList]) in
  LlamaCPP_generate client job_input w
  = match fst (models_list client (srv w)) with
    | Raise e => Run [] (Raise e) w'
    | Ret [] => Run [] (Raise IndexError) w'
    | Ret (m :: _) =>
        OpenAI_generate client
          (if isinstance_str (llm_input job_input)
           then mkJobInput PNone (PBool false) (PStr "/v1/completions")
                  (completion_payload (model_id m) (llm_input job_input) (stream job_input))
           else mkJobInput PNone (PBool false) (PStr "/v1/chat/completions")
                  (chat_payload (model_id m) (llm_input job_input) (stream job_input)))
          w'
    end.
Proof.
  destruct (models_list client (srv w)) as [[[|m rest]|e] s] eqn:E; cbn [fst snd].
  - now apply LlamaCPP_generate_no_model.
  - now apply (LlamaCPP_generate_run client job_input w m rest s).
  - now apply LlamaCPP_generate_listing_fault.
Qed.

(** The shape-routing engine reads [llm_input] and [stream] of a job and
    nothing else. *)
Lemma LlamaCPP_generate_reads (a b : JobInput) :
  llm_input a = llm_input b ->
  stream a = stream b ->
  LlamaCPP_generate client a = LlamaCPP_generate client b.
Proof.
  intros E1 E2. unfold LlamaCPP_generate, completion_job, chat_job.
  now rewrite E1, E2.
Qed.

Lemma handler_bad_job (job : dict) (w : world server) :
  (forall d, lookup "input" job <> Some (PDict d)) ->
  handler client job w
  = Run [] (Raise match lookup "input" job with
                  | None => KeyError "input"
                  | Some v => AttributeError v "get"
                  end) w.
Proof.
  intros H. unfold handler, subscript.
  destruct (lookup "input" job) as [v|]; [|reflexivity].
  rewrite (bind_ret (ret v) _ _ _ _ eq_refl).
  destruct v; try reflexivity. now elim (H d).
Qed.

Lemma handler_cases (job : dict) (w : world server) :
  (exists input,
      lookup "input" job = Some (PDict input)
      /\ JobInput_init (PDict input)
         = Ret (mkJobInput (dict_get input "messages" (dict_get input "prompt" PNone))
                           (dict_get input "stream" (PBool false))
                           (dict_get input "openai_route" PNone)
                           (dict_get input "openai_input" PNone)))
  \/ (forall d, lookup "input" job <> Some (PDict d)).
Proof.
  destruct (lookup "input" job) as [[]|]; try (right; intros; discriminate).
  left. now eexists.
Qed.

(** X6: the handler ends without an exception exactly when the job has a
    dict under "input" and either that dict names a truthy route or the
    model listing returns at least one model. *)
Theorem X6_handler_ends_normally_iff (job : dict) (w : world server) :
  result (handler client job w) = Ret tt
  <-> exists input,
        lookup "input" job = Some (PDict input)
        /\ (truthy (dict_get input "openai_route" PNone) = true
            \/ exists m rest, fst (models_list client (srv w)) = Ret (m :: rest)).
Proof.
  destruct (handler_cases job w) as [(input & Hi & Hj)|Hbad].
  - rewrite (handler_run client job input w _ Hi Hj). cbn [openai_route].
    destruct (truthy (dict_get input "openai_route" PNone)) eqn:Ht.
    + split; [intros _; exists input; auto|intros _; apply OpenAI_generate_total].
    + rewrite LlamaCPP_generate_cases.
      destruct (fst (models_list client (srv w))) as [[|m rest]|e] eqn:E.
      * split; [discriminate|].
        intros (input' & Hi' & [Ht'|(m & rest & Hm)]); [|discriminate Hm].
        rewrite Hi in Hi'. injection Hi' as <-. congruence.
      * split; [intros _; exists input; split; [exact Hi|right; now exists m, rest]|].
        intros _. apply OpenAI_generate_total.
      * split; [discriminate|].
        intros (input' & Hi' & [Ht'|(m & rest & Hm)]); [|discriminate Hm].
        rewrite Hi in Hi'. injection Hi' as <-. congruence.
  - rewrite (handler_bad_job job w Hbad). cbn [result]. split; [discriminate|].
    intros (input & Hi & _). now elim (Hbad input).
Qed.

(** X7: a run of the handler either ends normally after at least one
    unit, or lets an exception escape before any unit was yielded; an
    exception never follows a unit. *)
Theorem X7_handler_all_or_nothing (job : dict) (w : world server) :
  let r := handler client job w in
  (result r = Ret tt /\ units r <> [])
  \/ (exists e, result r = Raise e /\ units r = []).
Proof.
  intros r. subst r.
  destruct (handler_cases job w) as [(input & Hi & Hj)|Hbad].
  - rewrite (handler_run client job input w _ Hi Hj). cbn [openai_route].
    destruct (truthy (dict_get input "openai_route" PNone)).
    + left. split; [apply OpenAI_generate_total|apply OpenAI_generate_yields].
    + rewrite LlamaCPP_generate_cases.
      destruct (fst (models_list client (srv w))) as [[|m rest]|e].
      * right. now eexists.
      * left. split; [apply OpenAI_generate_total|apply OpenAI_generate_yields].
      * right. now eexists.
  - rewrite (handler_bad_job job w Hbad). right. now eexists.
Qed.

(** X8: for a job whose "openai_route" is missing or falsy, the handler
    first lists the models.  When the listing raises, that exception
    leaves the handler; when it returns no model, IndexError leaves the
    handler; in both cases nothing is yielded and no completion is asked
    for.  Otherwise the job goes to the completion route when [llm_input]
    is a string and to the chat route when it is not, with the id of the
    first model. *)
Theorem X8_shape_routed_handler (job input : dict) (w : world server) :
  lookup "input" job = Some (PDict input) ->
  truthy (dict_get input "openai_route" PNone) = false ->
  let llm := dict_get input "messages" (dict_get input "prompt" PNone) in
  let streaming := dict_get input "stream" (PBool false) in
  let w' := mkWorld (snd (models_list client (srv w))) (calls w ++ [ModelsList]) in
  handler client job w
  = match fst (models_list client (srv w)) with
    | Raise e => Run [] (Raise e) w'
    | Ret [] => Run [] (Raise (Exn "IndexError" "list index out of range")) w'
    | Ret (m :: _) =>
        if isinstance_str llm
        then _handle_chat_or_completion_request client
               (PDict [("model", PStr (model_id m)); ("prompt", llm);
                       ("stream", streaming)]) false w'
        else _handle_chat_or_completion_request client
               (PDict [("model", PStr (model_id m)); ("messages", llm);
                       ("stream", streaming)]) true w'
    end.
Proof.
  intros Hi Ht llm streaming w'.
  rewrite (handler_run client job input w _ Hi eq_refl). cbn [openai_route].
  rewrite Ht, LlamaCPP_generate_cases. cbn [llm_input stream].
  fold llm streaming w'.
  destruct (fst (models_list client (srv w))) as [[|m rest]|e]; try reflexivity.
  destruct (isinstance_str llm).
  - now rewrite OpenAI_generate_completions.
  - now rewrite OpenAI_generate_chat.
Qed.

(** X9: a job without an "input" key makes the handler raise
    KeyError('input'), and a job whose "input" is not a dict makes it raise
    AttributeError for the missing [get]; in both cases nothing is yielded
    and the client is not called. *)
Theorem X9_malformed_job_raises (job : dict) (w : world server) :
  (forall d, lookup "input" job <> Some (PDict d)) ->
  handler client job w
  = Run [] (Raise match lookup "input" job with
                  | None => Exn "KeyError" "'input'"
                  | Some v =>
                      Exn "AttributeError"
                          ("'" ++ type_name v ++ "' object has no attribute 'get'")%string
                  end) w.
Proof. intros H. now rewrite (handler_bad_job job w H). Qed.

(** X10: end to end, a job with a string "prompt", no "messages", no
    truthy route and a truthy "stream" value, served by a listing with at
    least one model and a stream of N chunks that ends by exhaustion,
    yields the N frames and then "data: [DONE]"; the client is called
    twice, for the listing and for a completion whose payload carries the
    raw "stream" value. *)
Theorem X10_prompt_streamed_end_to_end
    (job input : dict) (w : world server) prompt m rest s1 response s2 :
  lookup "input" job = Some (PDict input) ->
  truthy (dict_get input "openai_route" PNone) = false ->
  lookup "messages" input = None ->
  lookup "prompt" input = Some (PStr prompt) ->
  truthy (dict_get input "stream" (PBool false)) = true ->
  models_list client (srv w) = (Ret (m :: rest), s1) ->
  let payload := PDict [("model", PStr (model_id m)); ("prompt", PStr prompt);
                        ("stream", dict_get input "stream" (PBool false))] in
  completions_create client payload s1 = (Ret response, s2) ->
  resp_fault response = None ->
  handler client job w
  = Run (map (fun c => PStr ("data: " ++ json_dumps c
                                      ++ String LF (String LF EmptyString))%string)
             (resp_chunks response)
         ++ [PStr "data: [DONE]"])
        (Ret tt)
        (mkWorld s2 (calls w ++ [ModelsList; CompletionsCreate payload])).
Proof.
  intros Hi Ht Hm Hp Hs Hl payload Hc Hf.
  assert (Hllm : dict_get input "messages" (dict_get input "prompt" PNone) = PStr prompt)
    by (unfold dict_get; now rewrite Hm, Hp).
  rewrite (handler_run client job input w _ Hi eq_refl). cbn [openai_route].
  rewrite Ht, (LlamaCPP_generate_run client _ w m rest s1 Hl). cbn [llm_input stream].
  rewrite Hllm. cbn [isinstance_str].
  rewrite OpenAI_generate_completions by reflexivity. cbn [openai_input].
  unfold completion_payload.
  rewrite (streaming_run client _ false _ response s2); [|exact Hs|exact Hc].
  rewrite Hf. cbn [calls srv created]. now rewrite <- app_assoc.
Qed.

(** X12: for jobs without a truthy route, the handler reads the input map
    through [llm_input] and "stream" only: two jobs that agree on these
    run alike, whatever "openai_input" or other fields they carry. *)
Theorem X12_falsy_route_ignores_payload (job1 job2 input1 input2 : dict) (w : world server) :
  lookup "input" job1 = Some (PDict input1) ->
  lookup "input" job2 = Some (PDict input2) ->
  truthy (dict_get input1 "openai_route" PNone) = false ->
  truthy (dict_get input2 "openai_route" PNone) = false ->
  dict_get input1 "messages" (dict_get input1 "prompt" PNone)
  = dict_get input2 "messages" (dict_get input2 "prompt" PNone) ->
  dict_get input1 "stream" (PBool false) = dict_get input2 "stream" (PBool false) ->
  handler client job1 w = handler client job2 w.
Proof.
  intros H1 H2 T1 T2 El Es.
  rewrite (handler_run client job1 input1 w _ H1 eq_refl).
  rewrite (handler_run client job2 input2 w _ H2 eq_refl).
  cbn [openai_route]. rewrite T1, T2.
  apply (f_equal (fun g => g w)), LlamaCPP_generate_reads; assumption.
Qed.

(** X13: a job whose route is "/v1/models" gets exactly one unit from the
    handler, the model list or the error dict of the listing, after one
    call of the client; its "openai_input" and its prompt or messages play
    no part. *)
Theorem X13_models_route_through_handler (job input : dict) (w : world server) :
  lookup "input" job = Some (PDict input) ->
  lookup "openai_route" input = Some (PStr "/v1/models") ->
  handler client job w
  = Run [match fst (models_list client (srv w)) with
         | Ret data => PDict [("object", PStr "list");
                              ("data", PList (map model_to_dict data))]
         | Raise e => PDict [("error", PStr (exn_str e))]
         end]
        (Ret tt)
        (mkWorld (snd (models_list client (srv w))) (calls w ++ [ModelsList])).
Proof.
  intros Hi Hr.
  rewrite (handler_run client job input w _ Hi eq_refl). cbn [openai_route].
  unfold dict_get at 1 2. rewrite Hr. cbn [truthy].
  unfold OpenAI_generate. cbn [openai_route eq_str]. unfold dict_get at 1.
  rewrite Hr. cbn [eq_str String.eqb Ascii.eqb Bool.eqb].
  apply handle_model_request_run.
Qed.

(** X14: a run of the handler only appends to the log of client calls,
    and it appends at most two calls, of which at most one asks for a
    completion: nothing is retried. *)
Theorem X14_handler_at_most_two_calls (job : dict) (w : world server) :
  exists made,
    calls (after (handler client job w)) = calls w ++ made
    /\ length made <= 2
    /\ length (filter is_create made) <= 1.
Proof.
  destruct (handler_cases job w) as [(input & Hi & Hj)|Hbad].
  - rewrite (handler_run client job input w _ Hi Hj). cbn [openai_route].
    destruct (truthy (dict_get input "openai_route" PNone)).
    + rewrite OpenAI_generate_calls. eexists. split; [reflexivity|].
      repeat (match goal with |- context [if ?b then _ else _] => destruct b end);
        cbn; lia.
    + rewrite LlamaCPP_generate_cases.
      destruct (fst (models_list client (srv w))) as [[|m rest]|e].
      * exists [ModelsList]. cbn. split; [reflexivity|lia].
      * rewrite OpenAI_generate_calls. cbn [calls]. rewrite <- app_assoc.
        eexists. split; [reflexivity|].
        destruct (isinstance_str _); cbn; lia.
      * exists [ModelsList]. cbn. split; [reflexivity|lia].
  - rewrite (handler_bad_job job w Hbad). exists []. cbn.
    split; [now rewrite app_nil_r|lia].
Qed.
End Handler.

(* ================================================================== *)
(** ** The frame of a chunk *)
(* ================================================================== *)

Lemma count_char_app (c : ascii) (a b : string) :
  count_char c (a ++ b) = count_char c a + count_char c b.
Proof.
  induction a as [|x a IH]; cbn [count_char String.append]; [reflexivity|].
  rewrite IH. apply Nat.add_assoc.
Qed.

Lemma printable_count_line_breaks (s : string) :
  all_printable s = true -> count_char LF s = 0 /\ count_char CR s = 0.
Proof.
  induction s as [|c s IH]; cbn [all_printable count_char]; [now split|].
  intros H. apply andb_true_iff in H as [Hc Hs].
  destruct (IH Hs) as [H1 H2].
  destruct (printable_not_line_break c Hc) as [E1 E2].
  now rewrite H1, H2, E1, E2.
Qed.

(** X11: the frame of a chunk is one line closed by an empty line: it
    holds exactly two line feeds, which are its last two characters, and
    no carriage return, whatever text the chunk carries; it is never the
    sentinel "data: [DONE]". *)
Theorem X11_frame_is_one_line (chunk : pyval) :
  (exists line, frame chunk = (line ++ String LF (String LF EmptyString))%string
                /\ count_char LF line = 0)
  /\ count_char LF (frame chunk) = 2
  /\ count_char CR (frame chunk) = 0
  /\ frame chunk <> DONE.
Proof.
  destruct (printable_count_line_breaks _ (json_dumps_printable chunk)) as [H1 H2].
  assert (HLF : count_char LF (frame chunk) = 2).
  { unfold frame. rewrite !count_char_app, H1. reflexivity. }
  repeat split.
  - exists ("data: " ++ json_dumps chunk)%string. split.
    + reflexivity.
    + now rewrite count_char_app, H1.
  - exact HLF.
  - unfold frame. rewrite !count_char_app, H2. reflexivity.
  - intros E. rewrite E in HLF. discriminate HLF.
Qed.

(* ================================================================== *)
(** ** Further runs on the example clients *)
(* ================================================================== *)

Lemma X2_witness :
  _handle_chat_or_completion_request steady (PDict plain_payload) true w0
  = Run [PDict [("object", PStr "text_completion"); ("echo", PDict plain_payload)]]
        (Ret tt) (mkWorld 1 [ChatCreate (PDict plain_payload)]).
Proof.
  exact (X2_non_streaming_one_unit steady plain_payload true w0
           (answer (PDict plain_payload)) 1 eq_refl eq_refl).
Defined.

Lemma X3_witness :
  _handle_chat_or_completion_request unreachable (PDict stream_payload) false w0
  = Run [PDict [("error", PStr "Connection error.")]] (Ret tt)
        (mkWorld 0 [CompletionsCreate (PDict stream_payload)]).
Proof.
  exact (X3_create_fault_one_error_unit unreachable (PDict stream_payload) false w0
           ConnectionError 0 eq_refl).
Defined.

Lemma X8_witness :
  handler modelless (job_of stream_text_input) w0
  = Run [] (Raise (Exn "IndexError" "list index out of range")) (mkWorld 1 [ModelsList]).
Proof.
  exact (X8_shape_routed_handler modelless (job_of stream_text_input) stream_text_input w0
           eq_refl eq_refl).
Defined.

Lemma X9_witness :
  handler steady job_without_input w0 = Run [] (Raise (Exn "KeyError" "'input'")) w0.
Proof.
  apply (X9_malformed_job_raises steady job_without_input w0). discriminate.
Defined.

Lemma X10_witness :
  handler steady (job_of stream_text_input) w0
  = Run [PStr (frame chunk1); PStr (frame chunk2); PStr "data: [DONE]"] (Ret tt)
        (mkWorld 2 [ModelsList;
                    CompletionsCreate
                      (PDict [("model", PStr "llama-3"); ("prompt", PStr "hi");
                              ("stream", PStr "false")])]).
Proof.
  exact (X10_prompt_streamed_end_to_end steady (job_of stream_text_input) stream_text_input
           w0 "hi" llama [] 1
           (answer (PDict [("model", PStr "llama-3"); ("prompt", PStr "hi");
                           ("stream", PStr "false")])) 2
           eq_refl eq_refl eq_refl eq_refl eq_refl eq_refl eq_refl eq_refl).
Defined.

Lemma X12_witness :
  handler steady (job_of [("prompt", PStr "hi")]) w0
  = handler steady (job_of stray_payload_input) w0.
Proof.
  exact (X12_falsy_route_ignores_payload steady
           (job_of [("prompt", PStr "hi")]) (job_of stray_payload_input)
           [("prompt", PStr "hi")] stray_payload_input w0
           eq_refl eq_refl eq_refl eq_refl eq_refl eq_refl).
Defined.

Lemma X13_witness :
  handler steady (job_of models_input) w0
  = Run [PDict [("object", PStr "list"); ("data", PList [model_to_dict llama])]]
        (Ret tt) (mkWorld 1 [ModelsList]).
Proof.
  exact (X13_models_route_through_handler steady (job_of models_input) models_input w0
           eq_refl eq_refl).
Defined.
